(** * Ads Transparency scraper: the page extractor and the batch loop

    A shallow embedding of [scraper.py]: the single-shot extractor
    [scrape_ads_count], [process_csv] with its retry loop, and [main],
    together with the properties that the design document states and
    further ones that the code shows.

    Conventions.
    - Python strings are [string], a character being a code point below
      256; the code only compares, trims, slices and concatenates them.
    - A Python call that may raise returns a [result]; [Raise msg] carries
      [str(e)] of the exception.
    - The browser, the network and the file system are a [World]: the code
      is a function of it, and every effect it performs is appended to a
      trace of [event]s. *)

From stdpp Require Import base list strings pretty.
From Stdlib Require Import ZArith Ascii String.

Open Scope list_scope.

(** ** Python values used by the module *)

Module Py.

(** A call that returns [a] or raises an exception whose [str] is [msg]. *)
Inductive result (A : Type) : Type :=
| Ok (a : A)
| Raise (msg : string).
Arguments Ok {A} a.
Arguments Raise {A} msg.

(** [try: x = c; k x] with the exception passed on to the handler. *)
Definition bind {A B} (c : result A) (k : A -> result B) : result B :=
  match c with
  | Ok a => k a
  | Raise msg => Raise msg
  end.

(** [s.startswith(p)] *)
Fixpoint startswith (s p : string) {struct p} : bool :=
  match p with
  | EmptyString => true
  | String a p' =>
      match s with
      | EmptyString => false
      | String b s' => Ascii.eqb a b && startswith s' p'
      end
  end.

(** [p in s] on strings: [p] occurs in [s] as a substring. *)
Fixpoint contains (p s : string) : bool :=
  startswith s p ||
  match s with
  | EmptyString => false
  | String _ s' => contains p s'
  end.

(** The characters below 256 that [str.isspace] accepts: tab, line feed,
    vertical tab, form feed, carriage return, the four separators 28..31,
    the space, next line (133) and the no-break space (160). *)
Definition isspace (c : ascii) : bool :=
  let n := nat_of_ascii c in
  ((9 <=? n) && (n <=? 13) || (28 <=? n) && (n <=? 32) ||
   (n =? 133) || (n =? 160))%nat.

Fixpoint lstrip (s : string) : string :=
  match s with
  | String c s' => if isspace c then lstrip s' else s
  | EmptyString => EmptyString
  end.

Definition rstrip (s : string) : string :=
  String.rev (lstrip (String.rev s)).

(** [s.strip()] *)
Definition strip (s : string) : string := rstrip (lstrip s).

(** The lower-case form of a character below 256: the letters A..Z and
    the accented capitals 192..222, the sign 215 apart, move up by 32. *)
Definition lower_char (c : ascii) : ascii :=
  let n := nat_of_ascii c in
  if ((65 <=? n) && (n <=? 90) ||
      (192 <=? n) && (n <=? 222) && negb (n =? 215))%nat
  then ascii_of_nat (n + 32) else c.

(** [s.lower()] *)
Fixpoint lower (s : string) : string :=
  match s with
  | EmptyString => EmptyString
  | String c s' => String (lower_char c) (lower s')
  end.

(** [s[:n]] *)
Definition slice_to (n : nat) (s : string) : string := String.substring 0 n s.

(** [str(n)] of a non-negative [int]. *)
Definition str_int (n : nat) : string := pretty n.

End Py.
Import Py.

Notation "'try!' x <- c ; k" := (Py.bind c (fun x => k))
  (at level 10, x name, c at level 100, k at level 200).

(** ** The page as the extractor sees it *)

(** What a loaded page answers to the three queries of the extractor. Each
    Playwright call may raise; the wait takes its timeout in milliseconds. *)
Record PageState := {
  (** [page.locator(".ads-count-searchable").wait_for(state="visible", timeout=t)] *)
  wait_for_visible : Z -> result unit;
  (** [locator.inner_text()] *)
  inner_text : result string;
  (** [page.get_by_text("No ads found").count()] *)
  no_ads_found_count : result nat;
  (** [page.title()] *)
  title : result string
}.

(** A page of the browser context: [page.goto(url, wait_until=
    "domcontentloaded", timeout=t)] either raises or leaves the page in a
    state the queries read. *)
Record Page := {
  goto : string -> Z -> result PageState
}.

(** The timeouts, in milliseconds, that the two call sites pass to
    [page.goto] and to [locator.wait_for]. *)
Module Timeout.
Definition goto_single : Z := 60000.   (* line 15 *)
Definition wait_single : Z := 30000.   (* line 22 *)
Definition goto_batch : Z := 90000.    (* line 103 *)
Definition wait_batch : Z := 60000.    (* line 111 *)
End Timeout.

(** ** [scrape_ads_count] (scraper.py, lines 8-43) *)

(** Lines 20-23: wait for the count element, then read and trim its text. *)
Definition read_ads_count (st : PageState) (timeout : Z) : result string :=
  try! _ <- wait_for_visible st timeout;
  try! text <- inner_text st;
  Ok (strip text).

Definition scrape_ads_count (page : Page) (url : string) : string :=
  match goto page url Timeout.goto_single with
  | Raise e => "Error loading page: " +:+ e
  | Ok st =>
      match read_ads_count st Timeout.wait_single with
      | Ok text =>
          if String.eqb text "0 ads" then "no ads" else text
      | Raise _ =>
          (* bare [except:], its own exceptions caught at line 39 *)
          match no_ads_found_count st with
          | Raise e => "Error: " +:+ e
          | Ok n =>
              if (0 <? n)%nat then "no ads"
              else
                match title st with
                | Raise e => "Error: " +:+ e
                | Ok t =>
                    if contains "Google Ads" t then "no ads"
                    else "Error: Element not found"
                end
          end
      end
  end.

(** ** One attempt of the batch loop (scraper.py, lines 101-134)

    The [try] block of the retry loop on a freshly opened page. It yields
    the new value of [result] and whether the loop is left by [break]. *)
Definition try_page (page : Page) (url : string) : string * bool :=
  match goto page url Timeout.goto_batch with
  | Raise e => ("Error: " +:+ e, false)
  | Ok st =>
      match read_ads_count st Timeout.wait_batch with
      | Ok text =>
          (if String.eqb text "0 ads" then "no ads" else text, true)
      | Raise _ =>
          (* bare [except:], its own exceptions caught at line 133 *)
          match no_ads_found_count st with
          | Raise e => ("Error: " +:+ e, false)
          | Ok n =>
              if (0 <? n)%nat then ("no ads", true)
              else
                match title st with
                | Raise e => ("Error: " +:+ e, false)
                | Ok t =>
                    if contains "Google Ads" t
                    then ("Error: Element not found (Timeout)", false)
                    else ("Error: Page load failed", false)
                end
          end
      end
  end.

(** ** Tables *)

(** A cell as the code reads it: [pd.isna] and [str] are all it applies. *)
Inductive Cell :=
| NaN
| Str (s : string).

Definition isna (c : Cell) : bool :=
  match c with NaN => true | Str _ => false end.

Definition str (c : Cell) : string :=
  match c with NaN => "nan" | Str s => s end.

(** A [DataFrame] read by [pd.read_csv]: a range index [0 .. index-1] and
    the columns in file order, each with its label. [read_csv] gives every
    column [index] cells and no label twice; a lookup that finds no cell
    reads as [NaN]. *)
Record DataFrame := {
  index : nat;
  cols : list (string * list Cell)
}.

Definition len (df : DataFrame) : nat := index df.

Definition columns (df : DataFrame) : list string := (cols df).*1.

Fixpoint get_col (name : string) (cs : list (string * list Cell))
  : option (list Cell) :=
  match cs with
  | [] => None
  | (c, vs) :: cs' => if String.eqb c name then Some vs else get_col name cs'
  end.

Fixpoint put_col (name : string) (vs : list Cell)
  (cs : list (string * list Cell)) : list (string * list Cell) :=
  match cs with
  | [] => [(name, vs)]
  | (c, old) :: cs' =>
      if String.eqb c name then (c, vs) :: cs'
      else (c, old) :: put_col name vs cs'
  end.

(** [df.at[i, name]] where it exists. *)
Definition cell (df : DataFrame) (i : nat) (name : string) : option Cell :=
  vs ← get_col name (cols df); vs !! i.

(** [row[name]] for the row [i] that [df.iterrows()] yields. *)
Definition row_get (df : DataFrame) (i : nat) (name : string) : Cell :=
  default NaN (cell df i name).

(** [df[name] = values] with a list: pandas refuses a list of the wrong
    length; an existing label keeps its place, a new one goes last. *)
Definition set_column (df : DataFrame) (name : string) (values : list Cell)
  : result DataFrame :=
  if (List.length values =? len df)%nat
  then Ok {| index := index df; cols := put_col name values (cols df) |}
  else Raise ("Length of values (" +:+ str_int (List.length values) +:+
              ") does not match length of index (" +:+ str_int (len df) +:+ ")").

(** [df[name] = v] with a scalar: the value is broadcast to every row. *)
Definition set_column_scalar (df : DataFrame) (name : string) (v : Cell)
  : DataFrame :=
  {| index := index df; cols := put_col name (replicate (len df) v) (cols df) |}.

(** [df.iloc[0, 0]] *)
Definition iloc_0_0 (df : DataFrame) : result Cell :=
  match cols df with
  | (_, v :: _) :: _ => Ok v
  | _ => Raise "index 0 is out of bounds for axis 0 with size 0"
  end.

(** Lines 58-71 of [process_csv]: the column that holds the URLs. *)
Definition detect_url_col (df : DataFrame) : result string :=
  match List.find (fun col => contains "url" (lower col) || contains "link" (lower col))
             (columns df) with
  | Some col => Ok col
  | None =>
      try! v <- iloc_0_0 df;
      let first_val := str v in
      if startswith first_val "http"
      then match columns df with
           | c :: _ => Ok c
           | [] => Raise "index 0 is out of bounds for axis 0 with size 0"
           end
      else Raise "Could not detect a URL column. Please name it 'url' or similar."
  end.

(** ** Effects *)

(** What [process_csv] does to the outside, in the order it does it. *)
Inductive event :=
| Progress (current total : nat) (message : string)
    (* [progress_callback(current, total, message)] *)
| Launch                          (* [p.chromium.launch(headless=True)] *)
| NewContext                      (* [browser.new_context()] *)
| NewPage (id : nat)              (* [context.new_page()] *)
| ClosePage (id : nat)            (* [page.close()] *)
| Sleep (seconds : nat)           (* [time.sleep(seconds)] *)
| Append (value : string)         (* [extracted_counts.append(value)] *)
| CloseBrowser                    (* [browser.close()] *)
| ToCsv (df : DataFrame) (path : string).
    (* [df.to_csv(path, index=False)] *)

(** The surroundings of one run. [new_page w k] is the page that the
    [k]-th call of [context.new_page()] returns, with whatever the network
    will answer to it. Opening and closing a page, launching and closing
    the browser and the progress callback are taken not to raise. *)
Record World := {
  path_exists : string -> bool;
  read_csv : string -> result DataFrame;
  new_page : nat -> Page;
  to_csv : DataFrame -> string -> result unit
}.

(** The two variables the batch loop updates: how many pages the context
    has handed out, and the list [extracted_counts]. *)
Record State := {
  opened : nat;
  extracted_counts : list string
}.

(** A step of the run: a value, the events performed, the new state. *)
Definition Run (A : Type) : Type := State -> A * list event * State.

#[global] Instance Run_ret : MRet Run :=
  fun A a s => (a, [], s).

#[global] Instance Run_bind : MBind Run :=
  fun A B k c s =>
    let '(a, ev1, s1) := c s in
    let '(b, ev2, s2) := k a s1 in
    (b, ev1 ++ ev2, s2).

Definition emit (e : event) : Run unit :=
  fun s => (tt, [e], s).

Definition context_new_page (w : World) : Run (nat * Page) :=
  fun s =>
    ((opened s, new_page w (opened s)),
     [NewPage (opened s)],
     {| opened := S (opened s); extracted_counts := extracted_counts s |}).

Definition append (value : string) : Run unit :=
  fun s =>
    (tt, [Append value],
     {| opened := opened s; extracted_counts := extracted_counts s ++ [value] |}).

(** [if progress_callback: progress_callback(current, total, message)] *)
Definition progress (progress_callback : bool) (current total : nat)
  (message : string) : Run unit :=
  if progress_callback then emit (Progress current total message) else mret tt.

(** [for x in xs: body x] *)
Fixpoint for_each {A} (body : A -> Run unit) (xs : list A) : Run unit :=
  match xs with
  | [] => mret tt
  | x :: xs' => body x ;; for_each body xs'
  end.

(** ** [process_csv] (scraper.py, lines 45-156) *)

(** Lines 100-136: a fresh page, the attempt, and [page.close()] in the
    [finally] clause. *)
Definition attempt_once (w : World) (url : string) : Run (string * bool) :=
  '(id, page) ← context_new_page w;
  let r := try_page page url in
  emit (ClosePage id) ;;
  mret r.

(** Lines 99-140: [for attempt in range(max_retries)], over the attempts
    still to make. *)
Fixpoint retry_loop (w : World) (url : string) (max_retries : nat)
  (attempts : list nat) (result : string) : Run string :=
  match attempts with
  | [] => mret result
  | attempt :: rest =>
      '(result, break) ← attempt_once w url;
      if (break : bool) then mret result
      else
        (if (attempt <? max_retries - 1)%nat then emit (Sleep 2) else mret tt) ;;
        retry_loop w url max_retries rest result
  end.

(** Line 91: [pd.isna(url) or not str(url).startswith("http")]. *)
Definition invalid_url (url : Cell) : bool :=
  isna url || negb (startswith (str url) "http").

(** Line 89: the message of the callback of a row. *)
Definition processing_message (df : DataFrame) (index : nat) (url : Cell)
  : string :=
  "Processing " +:+ str_int (index + 1) +:+ "/" +:+ str_int (len df) +:+
  ": " +:+ slice_to 50 (str url) +:+ "...".

(** Lines 87-145: the body of [for index, row in df.iterrows()]. *)
Definition loop_body (w : World) (df : DataFrame) (url_col : string)
  (progress_callback : bool) (index : nat) : Run unit :=
  let url := row_get df index url_col in
  progress progress_callback (index + 1) (len df)
    (processing_message df index url) ;;
  if invalid_url url
  then append "Invalid URL"                        (* [continue] *)
  else
    let max_retries := 3 in
    result ← retry_loop w (str url) max_retries (seq 0 max_retries)
               "Error: Element not found";
    append result ;;
    emit (Sleep 1).

(** Lines 82-147: the browser session around the loop over the rows. *)
Definition scrape_rows (w : World) (df : DataFrame) (url_col : string)
  (progress_callback : bool) : Run unit :=
  emit Launch ;;
  emit NewContext ;;
  for_each (loop_body w df url_col progress_callback) (seq 0 (len df)) ;;
  emit CloseBrowser.

Definition initial : State := {| opened := 0; extracted_counts := [] |}.

(** Line 74 and line 154: the first and the last message. *)
Definition found_message (df : DataFrame) (url_col : string) : string :=
  "Found " +:+ str_int (len df) +:+ " rows. Using column '" +:+
  url_col +:+ "'...".

Definition done_message (output_path : string) : string :=
  "Done! Saved to " +:+ output_path.

(** Lines 77-78: the result column is created when the table lacks it. *)
Definition ensure_ads_column (df : DataFrame) : DataFrame :=
  if bool_decide ("number of ads" ∈ columns df) then df
  else set_column_scalar df "number of ads" (Str EmptyString).

(** The whole function: what it returns (or raises) and what it did. *)
Definition process_csv (w : World) (input_path output_path : string)
  (progress_callback : bool) : result unit * list event :=
  if negb (path_exists w input_path)
  then (Raise ("Input file '" +:+ input_path +:+ "' not found."), [])
  else
    match read_csv w input_path with
    | Raise e => (Raise ("Error reading CSV: " +:+ e), [])
    | Ok df =>
        match detect_url_col df with
        | Raise e => (Raise e, [])
        | Ok url_col =>
            let '(_, ev0, s0) :=
              progress progress_callback 0 (len df)
                (found_message df url_col) initial in
            let df1 := ensure_ads_column df in
            let '(_, ev1, s1) :=
              scrape_rows w df1 url_col progress_callback s0 in
            match set_column df1 "number of ads" (Str <$> extracted_counts s1) with
            | Raise e => (Raise e, ev0 ++ ev1)
            | Ok df2 =>
                let call := [ToCsv df2 output_path] in
                match to_csv w df2 output_path with
                | Raise e =>
                    (Raise ("Error writing output CSV: " +:+ e), ev0 ++ ev1 ++ call)
                | Ok _ =>
                    let '(_, ev2, _) :=
                      progress progress_callback (len df2) (len df2)
                        (done_message output_path) s1 in
                    (Ok tt, ev0 ++ ev1 ++ call ++ ev2)
                end
            end
        end
    end.

(** ** Vocabulary of the statements *)

(** The count element became visible within [timeout] and shows [text]. *)
Definition count_visible (st : PageState) (timeout : Z) (text : string) : Prop :=
  wait_for_visible st timeout = Ok tt ∧ inner_text st = Ok text.

(** The wait for the count element ran out (or failed otherwise). *)
Definition count_not_visible (st : PageState) (timeout : Z) : Prop :=
  ∃ e, wait_for_visible st timeout = Raise e.

(** No "No ads found" text node on the page. *)
Definition no_ads_text_absent (st : PageState) : Prop :=
  no_ads_found_count st = Ok 0.

(** At least one "No ads found" text node on the page. *)
Definition no_ads_text_present (st : PageState) : Prop :=
  ∃ n, no_ads_found_count st = Ok (S n).

(** The title carries the product name. *)
Definition title_has_product_name (st : PageState) : Prop :=
  ∃ t, title st = Ok t ∧ contains "Google Ads" t = true.

(** The page answers alike under the timeouts of the two call sites. *)
Definition fixed_state (page : Page) (url : string) : Prop :=
  goto page url Timeout.goto_single = goto page url Timeout.goto_batch ∧
  ∀ st, goto page url Timeout.goto_single = Ok st →
        wait_for_visible st Timeout.wait_single = wait_for_visible st Timeout.wait_batch.

(** The classification gets as far as looking at the title: no count was
    read, no "No ads found" node was counted, and the title could be read. *)
Definition decided_by_title (st : PageState) : Prop :=
  (∃ e, read_ads_count st Timeout.wait_single = Raise e) ∧
  no_ads_found_count st = Ok 0 ∧
  ∃ t, title st = Ok t.

(** An attempt on this page ends the retry loop: it reads a count or
    finds the "No ads found" text. *)
Definition attempt_succeeds (page : Page) (url : string) : Prop :=
  ∃ st, goto page url Timeout.goto_batch = Ok st ∧
        ((∃ text, read_ads_count st Timeout.wait_batch = Ok text) ∨
         ((∃ e, read_ads_count st Timeout.wait_batch = Raise e) ∧
          no_ads_text_present st)).

(** *** Reading a trace *)

Definition is_new_page (e : event) : bool :=
  match e with NewPage _ => true | _ => false end.

Definition is_retry_delay (e : event) : bool :=
  match e with Sleep 2 => true | _ => false end.

Definition is_polite_delay (e : event) : bool :=
  match e with Sleep 1 => true | _ => false end.

Definition is_progress (e : event) : bool :=
  match e with Progress _ _ _ => true | _ => false end.

Definition count_events (p : event → bool) (tr : list event) : nat :=
  List.length (List.filter p tr).

(** The values handed to [extracted_counts.append], in order. *)
Fixpoint appended (tr : list event) : list string :=
  match tr with
  | [] => []
  | Append v :: tr' => v :: appended tr'
  | _ :: tr' => appended tr'
  end.

(** The calls of the progress callback, in order. *)
Definition progress_calls (tr : list event) : list event :=
  List.filter is_progress tr.

(** The tables handed to [to_csv], in order. *)
Fixpoint written (tr : list event) : list DataFrame :=
  match tr with
  | [] => []
  | ToCsv df _ :: tr' => df :: written tr'
  | _ :: tr' => written tr'
  end.

(** What one attempt on the page [id] does to the outside. *)
Definition attempt_events (id : nat) : list event :=
  [NewPage id; ClosePage id].

(** [n] attempts on the pages [id], [id+1], ... with the retry delay
    between two of them and nothing after the last. *)
Fixpoint retry_trace (id n : nat) : list event :=
  match n with
  | 0 => []
  | 1 => attempt_events id
  | S n' => attempt_events id ++ [Sleep 2] ++ retry_trace (S id) n'
  end.

(** The callback of the row [index], when there is a callback. *)
Definition row_progress (progress_callback : bool) (df : DataFrame)
  (url_col : string) (index : nat) : list event :=
  if progress_callback
  then [Progress (index + 1) (len df)
          (processing_message df index (row_get df index url_col))]
  else [].

(** The state after [n] more pages were opened. *)
Definition pages_later (n : nat) (s : State) : State :=
  {| opened := n + opened s; extracted_counts := extracted_counts s |}.

(** The run of a loop, body by body: the events of each round and the
    state it leaves. *)
Inductive Rows {A} (body : A → Run unit)
  : list A → State → list (list event) → State → Prop :=
| Rows_nil s :
    Rows body [] s [] s
| Rows_cons x xs s seg s1 segs s2 :
    body x s = (tt, seg, s1) →
    Rows body xs s1 segs s2 →
    Rows body (x :: xs) s (seg :: segs) s2.

(** The value a row may end with: the marker of an invalid URL, or the
    result of an attempt on the URL of that very row. *)
Definition row_outcome (w : World) (df : DataFrame) (url_col : string)
  (index : nat) (v : string) : Prop :=
  let url := row_get df index url_col in
  if invalid_url url then v = "Invalid URL"
  else ∃ id, v = (try_page (new_page w id) (str url)).1.

(** The events of the row [index]: its callback, then either the marker
    of an invalid URL at once, or [n ≥ 1] attempts, the value and the
    polite delay. *)
Definition row_shape (w : World) (df : DataFrame) (url_col : string)
  (progress_callback : bool) (index : nat) (seg : list event) : Prop :=
  ∃ id n v,
    row_outcome w df url_col index v ∧
    seg = row_progress progress_callback df url_col index ++
          if invalid_url (row_get df index url_col)
          then [Append v]
          else retry_trace id (S n) ++ [Append v; Sleep 1].

(** The events of a whole run that reaches the loop: the first callback,
    the session around the rows [segs], the write of [df2], and the last
    callback when the write went through. *)
Definition batch_trace (progress_callback : bool) (df : DataFrame)
  (url_col output_path : string) (segs : list (list event))
  (df2 : DataFrame) (saved : bool) : list event :=
  (if progress_callback
   then [Progress 0 (len df) (found_message df url_col)] else []) ++
  [Launch; NewContext] ++ List.concat segs ++
  [CloseBrowser; ToCsv df2 output_path] ++
  (if saved && progress_callback
   then [Progress (len df) (len df) (done_message output_path)] else []).

(** Whether [to_csv] went through. *)
Definition saved (r : result unit) : bool :=
  match r with Ok _ => true | Raise _ => false end.

Definition is_sleep (e : event) : bool :=
  match e with Sleep _ => true | _ => false end.

(** *** The browser session as a state machine *)

Inductive session :=
| NotStarted            (* no browser yet *)
| Idle                  (* browser running, no page open *)
| PageOpen (id : nat)   (* browser running, the page [id] open *)
| Closed.               (* browser closed *)

(** The moves a run may make: one launch, pages opened one at a time and
    closed before anything else happens, one close of the browser, and
    after it only the write of the table and the callback. *)
Definition session_step (st : session) (e : event) : option session :=
  match st, e with
  | NotStarted, Progress _ _ _ => Some NotStarted
  | NotStarted, Launch => Some Idle
  | Idle, NewContext => Some Idle
  | Idle, Progress _ _ _ => Some Idle
  | Idle, NewPage id => Some (PageOpen id)
  | PageOpen id, ClosePage id' => if (id =? id')%nat then Some Idle else None
  | Idle, Sleep _ => Some Idle
  | Idle, Append _ => Some Idle
  | Idle, CloseBrowser => Some Closed
  | Closed, ToCsv _ _ => Some Closed
  | Closed, Progress _ _ _ => Some Closed
  | _, _ => None
  end.

Fixpoint session_run (st : session) (tr : list event) : option session :=
  match tr with
  | [] => Some st
  | e :: tr' =>
      match session_step st e with
      | Some st' => session_run st' tr'
      | None => None
      end
  end.

Definition is_launch (e : event) : bool :=
  match e with Launch => true | _ => false end.

Definition is_close_browser (e : event) : bool :=
  match e with CloseBrowser => true | _ => false end.



(** ** Sample pages and tables *)

Module Demo.

Definition visible (text : string) : PageState :=
  {| wait_for_visible := fun _ => Ok tt;
     inner_text := Ok text;
     no_ads_found_count := Ok 0;
     title := Ok "Google Ads Transparency Center" |}.

Definition bare (page_title : string) : PageState :=
  {| wait_for_visible := fun _ => Raise "Timeout exceeded.";
     inner_text := Raise "Timeout exceeded.";
     no_ads_found_count := Ok 0;
     title := Ok page_title |}.

Definition loaded (st : PageState) : Page :=
  {| goto := fun _ _ => Ok st |}.

Definition unreachable : Page :=
  {| goto := fun _ _ => Raise "net::ERR_NAME_NOT_RESOLVED" |}.

Definition url : string := "https://adstransparency.google.com/advertiser/AR1".

(** Four rows: a good URL, a missing one, one without the scheme, and
    a good one again. *)
Definition table : DataFrame :=
  {| index := 4;
     cols :=
       [("advertiser", [Str "A"; Str "B"; Str "C"; Str "D"]);
        ("url", [Str url; NaN; Str "adstransparency.google.com/x";
                 Str "http://adstransparency.google.com/advertiser/AR4"])] |}.

(** The first three pages fail to load; every later one shows a count. *)
Definition world : World :=
  {| path_exists := fun _ => true;
     read_csv := fun _ => Ok table;
     new_page := fun k =>
       if (k <? 3)%nat then unreachable
       else loaded (visible "Approximately 1,200 ads");
     to_csv := fun _ _ => Ok tt |}.

(** One row, which loads at once. *)
Definition single : DataFrame :=
  {| index := 1; cols := [("url", [Str url])] |}.


End Demo.

(** ** [main] (scraper.py, lines 158-171) *)

(** The two positional arguments, as [parser.parse_args()] returns them. *)
Record Args := {
  input_csv : string;
  output_csv : string
}.

(** [console_progress]: what one call of the callback prints. *)
Definition console_progress (current total : nat) (message : string)
  : list string :=
  [message].

(** The lines the callback prints over a run. *)
Fixpoint printed (tr : list event) : list string :=
  match tr with
  | [] => []
  | Progress current total message :: tr' =>
      console_progress current total message ++ printed tr'
  | _ :: tr' => printed tr'
  end.

(** The lines written to the standard output, and the status handed to
    [sys.exit] when it is called. *)
Definition main (w : World) (args : Args) : list string * option nat :=
  let '(r, tr) := process_csv w (input_csv args) (output_csv args) true in
  match r with
  | Ok _ => (printed tr, None)
  | Raise e => (printed tr ++ ["Error: " +:+ e], Some 1)
  end.

(** ** Further vocabulary *)

(** No count was read: the wait ran out, or the element showed up and its
    text could not be read. *)
Definition count_unread (st : PageState) (timeout : Z) : Prop :=
  count_not_visible st timeout ∨
  (wait_for_visible st timeout = Ok tt ∧ ∃ e, inner_text st = Raise e).

(** The title can be read and does not carry the product name. *)
Definition title_lacks_product_name (st : PageState) : Prop :=
  ∃ t, title st = Ok t ∧ contains "Google Ads" t = false.

(** One of the two queries of the fallback raises [e]. *)
Definition fallback_raises (st : PageState) (e : string) : Prop :=
  no_ads_found_count st = Raise e ∨
  (no_ads_found_count st = Ok 0 ∧ title st = Raise e).

(** Line 61: the test applied to a column label. *)
Definition label_matches (col : string) : bool :=
  contains "url" (lower col) || contains "link" (lower col).





(** Every page the context hands out answers as [page] does. *)
Definition stationary (w : World) (page : Page) : Prop :=
  ∀ k, new_page w k = page.

(** What a row comes to when every attempt meets the same [page]. *)
Definition classify_row (page : Page) (url : Cell) : string :=
  if invalid_url url then "Invalid URL" else (try_page page (str url)).1.

(** ** More sample pages and tables *)

Module Sample.

(** No count element, one "No ads found" node. *)
Definition no_ads : PageState :=
  {| wait_for_visible := fun _ => Raise "Timeout exceeded.";
     inner_text := Raise "Timeout exceeded.";
     no_ads_found_count := Ok 1;
     title := Ok "Google Ads Transparency Center" |}.

(** The count element shows up, its text cannot be read. *)
Definition unreadable : PageState :=
  {| wait_for_visible := fun _ => Ok tt;
     inner_text := Raise "Element is not attached to the DOM";
     no_ads_found_count := Ok 1;
     title := Ok "Google Ads Transparency Center" |}.

(** The page went away while it was looked at. *)
Definition torn : PageState :=
  {| wait_for_visible := fun _ => Raise "Timeout exceeded.";
     inner_text := Raise "Timeout exceeded.";
     no_ads_found_count := Raise "Target closed";
     title := Raise "Target closed" |}.


(** No label says where the URLs are; the first cell does. *)
Definition unlabelled : DataFrame :=
  {| index := 1;
     cols := [("site", [Str Demo.url]); ("owner", [Str "A"])] |}.

(** The file system after a run of [Demo.calm]: the output is there and
    reads back as the table that was written. *)
Definition rerun : World :=
  {| path_exists := fun _ => true;
     read_csv := fun path =>
       if String.eqb path "out.csv"
       then Ok {| index := 1;
                  cols := [("url", [Str Demo.url]);
                           ("number of ads", [Str "12 ads"])] |}
       else Ok Demo.single;
     new_page := fun _ => Demo.loaded (Demo.visible "12 ads");
     to_csv := fun _ _ => Ok tt |}.



End Sample.

(** * Properties *)

(** ** The string operations *)

Example strip_example : strip "  Approximately 1,200 ads " = "Approximately 1,200 ads".
Proof. reflexivity. Qed.

Example lower_example : lower "Ads URL" = "ads url".
Proof. reflexivity. Qed.

Example slice_to_example : slice_to 4 "https://x" = "http" ∧ slice_to 50 "nan" = "nan".
Proof. split; reflexivity. Qed.

Lemma startswith_spec s p : startswith s p = true ↔ ∃ rest, s = p +:+ rest.
Proof.
  revert s. induction p as [|a p IH]; intros s; cbn.
  - split; [intros _; by exists s|done].
  - destruct s as [|b s]; cbn.
    + split; [done|]. by intros [rest [=]].
    + rewrite andb_true_iff, IH. split.
      * intros [Hab [rest ->]]. apply Ascii.eqb_eq in Hab as ->. by exists rest.
      * intros [rest [= -> ->]]. split; [apply Ascii.eqb_refl|by exists rest].
Qed.

(** [contains p s] is Python's [p in s]: [p] lies somewhere inside [s]. *)
Lemma contains_spec p s :
  contains p s = true ↔ ∃ before after, s = before +:+ p +:+ after.
Proof.
  induction s as [|c s IH]; cbn [contains]; rewrite orb_true_iff, startswith_spec.
  - split.
    + intros [[rest Hrest]|[=]]. by exists EmptyString, rest.
    + intros (before & after & Hs). left. exists after.
      destruct before; [done|discriminate Hs].
  - rewrite IH. split.
    + intros [[rest Hrest]|(before & after & ->)].
      * by exists EmptyString, rest.
      * by exists (String c before), after.
    + intros ([|c' before] & after & Hs).
      * left. by exists after.
      * right. injection Hs as -> ->. by exists before, after.
Qed.

(** ** The page extractor *)

Lemma read_ads_count_visible st timeout text :
  count_visible st timeout text → read_ads_count st timeout = Ok (strip text).
Proof.
  intros [Hwait Htext]. unfold read_ads_count. by rewrite Hwait, Htext.
Qed.

Lemma read_ads_count_not_visible st timeout :
  count_not_visible st timeout → ∃ e, read_ads_count st timeout = Raise e.
Proof.
  intros [e Hwait]. exists e. unfold read_ads_count. by rewrite Hwait.
Qed.

(** C7. When the ad-count element becomes visible, both call sites return
    "no ads" (NoAds) exactly when its trimmed text is "0 ads", and the
    trimmed text itself (Count) otherwise; in the batch loop such an
    attempt leaves the retry loop. *)
Theorem visible_count_result page url st text :
  goto page url Timeout.goto_single = Ok st →
  goto page url Timeout.goto_batch = Ok st →
  count_visible st Timeout.wait_single text →
  count_visible st Timeout.wait_batch text →
  (strip text = "0 ads" →
     scrape_ads_count page url = "no ads" ∧ try_page page url = ("no ads", true)) ∧
  (strip text ≠ "0 ads" →
     scrape_ads_count page url = strip text ∧
     try_page page url = (strip text, true)).
Proof.
  intros Hs Hb Hvs Hvb.
  apply read_ads_count_visible in Hvs, Hvb.
  unfold scrape_ads_count, try_page. rewrite Hs, Hb, Hvs, Hvb.
  split; intros Htext.
  - apply String.eqb_eq in Htext. by rewrite Htext.
  - apply String.eqb_neq in Htext. by rewrite Htext.
Qed.

Lemma visible_count_result_witness :
  (scrape_ads_count (Demo.loaded (Demo.visible "  0 ads ")) Demo.url = "no ads" ∧
   try_page (Demo.loaded (Demo.visible "  0 ads ")) Demo.url = ("no ads", true)) ∧
  (scrape_ads_count (Demo.loaded (Demo.visible " Approximately 1,200 ads")) Demo.url
     = "Approximately 1,200 ads").
Proof.
  split.
  - apply (visible_count_result (Demo.loaded (Demo.visible "  0 ads ")) Demo.url
             (Demo.visible "  0 ads ") "  0 ads ");
      [reflexivity | reflexivity | split; reflexivity | split; reflexivity
      | reflexivity].
  - apply (visible_count_result
             (Demo.loaded (Demo.visible " Approximately 1,200 ads")) Demo.url
             (Demo.visible " Approximately 1,200 ads") " Approximately 1,200 ads");
      [reflexivity | reflexivity | split; reflexivity | split; reflexivity
      | discriminate].
Defined.

(** C4 as stated fails: on a loaded page with no count element, no
    "No ads found" text and the title "Google Ads Transparency Center",
    [scrape_ads_count] answers "no ads", which is no error string. *)
Lemma title_only_single_shot_counterexample :
  let st := Demo.bare "Google Ads Transparency Center" in
  let page := Demo.loaded st in
  goto page Demo.url Timeout.goto_single = Ok st ∧
  count_not_visible st Timeout.wait_single ∧
  no_ads_text_absent st ∧
  title_has_product_name st ∧
  scrape_ads_count page Demo.url = "no ads" ∧
  startswith (scrape_ads_count page Demo.url) "Error" = false.
Proof.
  cbn zeta. repeat split; try reflexivity.
  - by eexists.
  - by eexists.
Qed.

(** C4, amended. With neither marker on the page and the product name in
    the title, the single-shot extractor returns "no ads" (NoAds); it is
    the attempt of the batch loop that reports the state as the error
    "Error: Element not found (Timeout)", and goes on retrying. *)
Theorem title_only_classification page url st :
  goto page url Timeout.goto_single = Ok st →
  goto page url Timeout.goto_batch = Ok st →
  count_not_visible st Timeout.wait_single →
  count_not_visible st Timeout.wait_batch →
  no_ads_text_absent st →
  title_has_product_name st →
  scrape_ads_count page url = "no ads" ∧
  try_page page url = ("Error: Element not found (Timeout)", false).
Proof.
  intros Hs Hb Hvs Hvb Hnone (t & Htitle & Hname).
  apply read_ads_count_not_visible in Hvs as [es Hvs], Hvb as [eb Hvb].
  unfold scrape_ads_count, try_page.
  rewrite Hs, Hb, Hvs, Hvb, Hnone, Htitle, Hname. done.
Qed.

Lemma title_only_classification_witness :
  scrape_ads_count (Demo.loaded (Demo.bare "Google Ads Transparency Center"))
    Demo.url = "no ads" ∧
  try_page (Demo.loaded (Demo.bare "Google Ads Transparency Center")) Demo.url
    = ("Error: Element not found (Timeout)", false).
Proof.
  apply (title_only_classification _ Demo.url
           (Demo.bare "Google Ads Transparency Center"));
    try reflexivity; try (by eexists).
Defined.

(** C5 as stated fails: on one and the same page state, which answers
    alike under every timeout, the attempt of the batch loop and the
    single-shot extractor return different results. *)
Lemma attempt_differs_from_single_shot_counterexample :
  let page := Demo.loaded (Demo.bare "Google Ads Transparency Center") in
  fixed_state page Demo.url ∧
  scrape_ads_count page Demo.url = "no ads" ∧
  (try_page page Demo.url).1 = "Error: Element not found (Timeout)" ∧
  (try_page page Demo.url).1 ≠ scrape_ads_count page Demo.url.
Proof.
  cbn zeta. repeat split; try reflexivity.
  - by intros st [= <-].
  - intros H. vm_compute in H. discriminate H.
Qed.

Lemma error_prefixes_differ e : "Error: " +:+ e ≠ "Error loading page: " +:+ e.
Proof. cbn. discriminate. Qed.

(** C5, amended. On a fixed page state the attempt of the batch loop
    returns what [scrape_ads_count] returns exactly when navigation
    succeeds and the result is settled before the title is looked at (the
    count is read, the "No ads found" text is there, or a query raises);
    after a failed navigation and in the states the title decides the two
    differ. The batch loop passes the larger timeout to either wait. *)
Theorem attempt_vs_single_shot page url :
  fixed_state page url →
  (Timeout.goto_single < Timeout.goto_batch)%Z ∧
  (Timeout.wait_single < Timeout.wait_batch)%Z ∧
  ((try_page page url).1 = scrape_ads_count page url ↔
   ∃ st, goto page url Timeout.goto_single = Ok st ∧ ¬ decided_by_title st).
Proof.
  intros [Hgoto Hwait]. split; [done|]. split; [done|].
  unfold scrape_ads_count, try_page, decided_by_title. rewrite <- Hgoto.
  destruct (goto page url Timeout.goto_single) as [st|e] eqn:Hnav; cbn.
  2:{ split.
      - intros H. by apply error_prefixes_differ in H.
      - by intros (st & [=] & _). }
  assert (Hread : read_ads_count st Timeout.wait_batch
                  = read_ads_count st Timeout.wait_single).
  { unfold read_ads_count. by rewrite (Hwait st). }
  rewrite Hread.
  destruct (read_ads_count st Timeout.wait_single) as [text|e] eqn:Hr.
  { destruct (String.eqb text "0 ads"); cbn;
      (split; [intros _; exists st; split; [done|]; intros [[? ?] _]; congruence
              | done]). }
  destruct (no_ads_found_count st) as [n|e'] eqn:Hc; cbn.
  2:{ split; [intros _|done]. exists st. split; [done|].
      intros (_ & ? & _). congruence. }
  destruct n as [|n]; cbn.
  2:{ split; [intros _|done]. exists st. split; [done|].
      intros (_ & ? & _). congruence. }
  destruct (title st) as [t|e'] eqn:Ht; cbn.
  2:{ split; [intros _|done]. exists st. split; [done|].
      intros (_ & _ & ? & ?). congruence. }
  split.
  - destruct (contains "Google Ads" t); cbn; discriminate.
  - intros (st' & [= <-] & Hnot). destruct Hnot. rewrite Hr, Hc, Ht. eauto.
Qed.

Lemma attempt_vs_single_shot_witness :
  (try_page (Demo.loaded (Demo.visible "12 ads")) Demo.url).1
  = scrape_ads_count (Demo.loaded (Demo.visible "12 ads")) Demo.url.
Proof.
  apply (attempt_vs_single_shot (Demo.loaded (Demo.visible "12 ads")) Demo.url).
  - split; [reflexivity | intros st [= <-]; reflexivity].
  - exists (Demo.visible "12 ads"). split; [reflexivity|].
    intros [[e He] _]. discriminate He.
Defined.

(** ** The retry loop *)

Lemma attempt_once_eq w url s :
  attempt_once w url s =
  (try_page (new_page w (opened s)) url, attempt_events (opened s), pages_later 1 s).
Proof. reflexivity. Qed.

Lemma retry_loop_cons w url max_retries attempt rest result s :
  retry_loop w url max_retries (attempt :: rest) result s =
  let r := try_page (new_page w (opened s)) url in
  if r.2 then (r.1, attempt_events (opened s), pages_later 1 s)
  else
    let '(result', ev, s') := retry_loop w url max_retries rest r.1 (pages_later 1 s) in
    (result',
     attempt_events (opened s) ++
     (if (attempt <? max_retries - 1)%nat then [Sleep 2] else []) ++ ev,
     s').
Proof.
  cbn [retry_loop]. unfold mbind, Run_bind. rewrite attempt_once_eq.
  destruct (try_page (new_page w (opened s)) url) as [r [|]]; cbn [fst snd].
  - reflexivity.
  - destruct (attempt <? max_retries - 1)%nat; cbn;
      by destruct (retry_loop _ _ _ _ _ _) as [[? ?] ?].
Qed.

(** The loop as [process_csv] runs it, by the outcome of the attempts. *)
Lemma retry_loop_three w url result s :
  let a i := try_page (new_page w (i + opened s)) url in
  retry_loop w url 3 (seq 0 3) result s =
  if (a 0).2 then ((a 0).1, retry_trace (opened s) 1, pages_later 1 s)
  else if (a 1).2 then ((a 1).1, retry_trace (opened s) 2, pages_later 2 s)
  else ((a 2).1, retry_trace (opened s) 3, pages_later 3 s).
Proof.
  cbn zeta. cbn [seq]. rewrite retry_loop_cons. cbn zeta. cbn [Nat.add].
  destruct (try_page (new_page w (opened s)) url).2; [reflexivity|].
  rewrite retry_loop_cons. cbn zeta. cbn [pages_later opened Nat.add].
  destruct (try_page (new_page w (S (opened s))) url).2; [reflexivity|].
  rewrite retry_loop_cons. cbn zeta. cbn [pages_later opened Nat.add].
  destruct (try_page (new_page w (S (S (opened s)))) url).2; reflexivity.
Qed.

Lemma try_page_break page url :
  (try_page page url).2 = true ↔ attempt_succeeds page url.
Proof.
  unfold try_page, attempt_succeeds, no_ads_text_present.
  destruct (goto page url Timeout.goto_batch) as [st|e]; cbn.
  2:{ split; [done|]. by intros (? & [=] & _). }
  destruct (read_ads_count st Timeout.wait_batch) as [text|e] eqn:Hr; cbn.
  { split; [|done]. intros _. exists st. rewrite Hr. eauto. }
  destruct (no_ads_found_count st) as [[|n]|e'] eqn:Hc; cbn.
  - assert ((match title st with
             | Ok t =>
                 if contains "Google Ads" t
                 then ("Error: Element not found (Timeout)", false)
                 else ("Error: Page load failed", false)
             | Raise e0 => ("Error: " +:+ e0, false)
             end).2 = false) as ->.
    { destruct (title st) as [t|?]; [destruct (contains _ t)|]; done. }
    split; [done|]. intros (st' & [= <-] & [[? ?]|[_ [? ?]]]); congruence.
  - split; [|done]. intros _. exists st. rewrite Hr, Hc.
    split; [done|]. right. split; by eexists.
  - split; [done|]. intros (st' & [= <-] & [[? ?]|[_ [? ?]]]); congruence.
Qed.

Lemma try_page_error page url :
  (try_page page url).2 = false →
  startswith (try_page page url).1 "Error: " = true.
Proof.
  unfold try_page.
  destruct (goto page url Timeout.goto_batch) as [st|e];
    [|intros _; reflexivity].
  destruct (read_ads_count st Timeout.wait_batch) as [text|e]; [done|].
  destruct (no_ads_found_count st) as [[|n]|e'];
    [|done|intros _; reflexivity].
  destruct (title st) as [t|?]; [destruct (contains _ t)|];
    intros _; reflexivity.
Qed.

(** ** One row of the batch *)

Lemma progress_eq progress_callback current total message s :
  progress progress_callback current total message s =
  (tt, if progress_callback then [Progress current total message] else [], s).
Proof. by destruct progress_callback. Qed.

Lemma loop_body_invalid w df url_col progress_callback index s :
  invalid_url (row_get df index url_col) = true →
  loop_body w df url_col progress_callback index s =
  (tt,
   row_progress progress_callback df url_col index ++ [Append "Invalid URL"],
   {| opened := opened s;
      extracted_counts := extracted_counts s ++ ["Invalid URL"] |}).
Proof.
  intros Hinv. unfold loop_body, row_progress, mbind, Run_bind.
  rewrite progress_eq, Hinv. reflexivity.
Qed.

Lemma loop_body_valid w df url_col progress_callback index s :
  invalid_url (row_get df index url_col) = false →
  loop_body w df url_col progress_callback index s =
  let '(result, ev, s') :=
    retry_loop w (str (row_get df index url_col)) 3 (seq 0 3)
      "Error: Element not found" s in
  (tt,
   row_progress progress_callback df url_col index ++ ev ++
   [Append result; Sleep 1],
   {| opened := opened s';
      extracted_counts := extracted_counts s' ++ [result] |}).
Proof.
  intros Hval. unfold loop_body, row_progress, mbind, Run_bind.
  rewrite progress_eq, Hval.
  by destruct (retry_loop _ _ _ _ _ _) as [[result ev] s'].
Qed.

Lemma count_events_app p tr1 tr2 :
  count_events p (tr1 ++ tr2) = count_events p tr1 + count_events p tr2.
Proof. unfold count_events. by rewrite List.filter_app, length_app. Qed.

Lemma count_row_progress p progress_callback df url_col index :
  (∀ c t m, p (Progress c t m) = false) →
  count_events p (row_progress progress_callback df url_col index) = 0.
Proof.
  intros Hp. unfold row_progress, count_events.
  destruct progress_callback; [|done]. cbn. by rewrite Hp.
Qed.

(** C1. A row with a valid URL gets [n] attempts, [1 ≤ n ≤ 3], on [n]
    fresh pages: every attempt before the last ended in an error string
    and did not stop the loop; the loop stops before the third attempt
    only on an attempt that read a count or found "No ads found"; the
    value recorded is the result of the last attempt; a delay of 2 lies
    between two attempts and none after the last. So three failed
    attempts make 3 attempts and 2 delays, and a success at once makes 1
    attempt and no delay. *)
Theorem retry_policy w df url_col progress_callback index s :
  let url := row_get df index url_col in
  let page i := new_page w (i + opened s) in
  invalid_url url = false →
  ∃ n tr,
    1 ≤ n ≤ 3 ∧
    (∀ i, i + 1 < n →
       ¬ attempt_succeeds (page i) (str url) ∧
       startswith (try_page (page i) (str url)).1 "Error: " = true) ∧
    (n < 3 → attempt_succeeds (page (n - 1)) (str url)) ∧
    loop_body w df url_col progress_callback index s =
      (tt, tr,
       {| opened := n + opened s;
          extracted_counts :=
            extracted_counts s ++ [(try_page (page (n - 1)) (str url)).1] |}) ∧
    tr = row_progress progress_callback df url_col index ++
         retry_trace (opened s) n ++
         [Append (try_page (page (n - 1)) (str url)).1; Sleep 1] ∧
    count_events is_new_page tr = n ∧
    count_events is_retry_delay tr = n - 1 ∧
    ((∀ i, i < 3 → ¬ attempt_succeeds (page i) (str url)) → n = 3) ∧
    (attempt_succeeds (page 0) (str url) → n = 1).
Proof.
  intros url page Hval.
  pose proof (loop_body_valid w df url_col progress_callback index s Hval) as Hrow.
  fold url in Hrow. rewrite retry_loop_three in Hrow. cbn zeta in Hrow.
  fold (page 0) (page 1) (page 2) in Hrow.
  assert (Hcount : ∀ p k,
            (∀ c t m, p (Progress c t m) = false) →
            count_events p
              (row_progress progress_callback df url_col index ++
               retry_trace (opened s) k ++
               [Append (try_page (page (k - 1)) (str url)).1; Sleep 1])
            = count_events p
                (retry_trace (opened s) k ++
                 [Append (try_page (page (k - 1)) (str url)).1; Sleep 1])).
  { intros p k Hp. by rewrite count_events_app, count_row_progress. }
  destruct (try_page (page 0) (str url)).2 eqn:H0.
  { exists 1, (row_progress progress_callback df url_col index ++
               retry_trace (opened s) 1 ++
               [Append (try_page (page 0) (str url)).1; Sleep 1]).
    rewrite !Hcount by done.
    repeat split; try done; try lia.
    - intros _. by apply try_page_break.
    - intros Hall. destruct (Hall 0); [lia|]. by apply try_page_break. }
  assert (Hfail0 : ¬ attempt_succeeds (page 0) (str url)).
  { rewrite <- try_page_break. congruence. }
  destruct (try_page (page 1) (str url)).2 eqn:H1.
  { exists 2, (row_progress progress_callback df url_col index ++
               retry_trace (opened s) 2 ++
               [Append (try_page (page 1) (str url)).1; Sleep 1]).
    rewrite !Hcount by done.
    repeat split; try done; try lia.
    - destruct i as [|i]; [done|lia].
    - destruct i as [|i]; [by apply try_page_error|lia].
    - intros _. by apply try_page_break.
    - intros Hall. destruct (Hall 1); [lia|]. by apply try_page_break. }
  assert (Hfail1 : ¬ attempt_succeeds (page 1) (str url)).
  { rewrite <- try_page_break. congruence. }
  exists 3, (row_progress progress_callback df url_col index ++
             retry_trace (opened s) 3 ++
             [Append (try_page (page 2) (str url)).1; Sleep 1]).
  rewrite !Hcount by done.
  repeat split; try done; try lia.
  - destruct i as [|[|i]]; [done|done|lia].
  - destruct i as [|[|i]]; [by apply try_page_error..|lia].
Qed.

(** ** Reading traces *)

Lemma appended_app tr1 tr2 : appended (tr1 ++ tr2) = appended tr1 ++ appended tr2.
Proof.
  induction tr1 as [|e tr1 IH]; [done|].
  destruct e; cbn; by rewrite ?IH.
Qed.

Lemma written_app tr1 tr2 : written (tr1 ++ tr2) = written tr1 ++ written tr2.
Proof.
  induction tr1 as [|e tr1 IH]; [done|].
  destruct e; cbn; by rewrite ?IH.
Qed.

Lemma progress_calls_app tr1 tr2 :
  progress_calls (tr1 ++ tr2) = progress_calls tr1 ++ progress_calls tr2.
Proof. apply List.filter_app. Qed.

Lemma session_run_app st tr1 tr2 :
  session_run st (tr1 ++ tr2) =
  match session_run st tr1 with
  | Some st' => session_run st' tr2
  | None => None
  end.
Proof.
  revert st. induction tr1 as [|e tr1 IH]; intros st; [done|].
  cbn. destruct (session_step st e); [apply IH|done].
Qed.

Lemma appended_row_progress progress_callback df url_col index :
  appended (row_progress progress_callback df url_col index) = [].
Proof. unfold row_progress. by destruct progress_callback. Qed.

Lemma written_row_progress progress_callback df url_col index :
  written (row_progress progress_callback df url_col index) = [].
Proof. unfold row_progress. by destruct progress_callback. Qed.

Lemma session_row_progress progress_callback df url_col index :
  session_run Idle (row_progress progress_callback df url_col index) = Some Idle.
Proof. unfold row_progress. by destruct progress_callback. Qed.

Lemma retry_trace_S id n :
  retry_trace id (S (S n)) = attempt_events id ++ [Sleep 2] ++ retry_trace (S id) (S n).
Proof. reflexivity. Qed.

Lemma session_attempt_events id tr :
  session_run Idle (attempt_events id ++ tr) = session_run Idle tr.
Proof. cbn. by rewrite Nat.eqb_refl. Qed.

Lemma session_retry_trace id n :
  session_run Idle (retry_trace id n) = Some Idle.
Proof.
  revert id. induction n as [|[|n] IH]; intros id; [done|..].
  - cbn. by rewrite Nat.eqb_refl.
  - rewrite retry_trace_S, session_attempt_events. apply IH.
Qed.

(** What a run of attempts contains: pages and retry delays only. *)
Lemma retry_trace_facts id n :
  appended (retry_trace id n) = [] ∧
  written (retry_trace id n) = [] ∧
  progress_calls (retry_trace id n) = [] ∧
  count_events is_new_page (retry_trace id n) = n ∧
  count_events is_retry_delay (retry_trace id n) = n - 1 ∧
  count_events is_polite_delay (retry_trace id n) = 0 ∧
  count_events is_launch (retry_trace id n) = 0 ∧
  count_events is_close_browser (retry_trace id n) = 0.
Proof.
  revert id. induction n as [|[|n] IH]; intros id.
  - done.
  - done.
  - rewrite retry_trace_S.
    destruct (IH (S id)) as (Ha & Hw & Hp & Hn & Hr & Hd & Hl & Hc).
    rewrite !appended_app, !written_app, !progress_calls_app,
      !count_events_app, Ha, Hw, Hp, Hn, Hr, Hd, Hl, Hc.
    cbn. repeat split; try done. lia.
Qed.

(** ** The loop over the rows *)

Lemma for_each_Rows {A} (body : A → Run unit) xs s :
  ∃ segs s', for_each body xs s = (tt, List.concat segs, s') ∧ Rows body xs s segs s'.
Proof.
  revert s. induction xs as [|x xs IH]; intros s.
  - exists [], s. split; [done|constructor].
  - cbn [for_each]. unfold mbind, Run_bind.
    destruct (body x s) as [[[] seg] s1] eqn:Hbody.
    destruct (IH s1) as (segs & s' & -> & Hrows).
    exists (seg :: segs), s'. split; [done|]. by econstructor.
Qed.

Lemma loop_body_shape w df url_col progress_callback index s :
  ∃ seg s',
    loop_body w df url_col progress_callback index s = (tt, seg, s') ∧
    row_shape w df url_col progress_callback index seg ∧
    extracted_counts s' = extracted_counts s ++ appended seg.
Proof.
  destruct (invalid_url (row_get df index url_col)) eqn:Hinv.
  - rewrite loop_body_invalid by done. eexists _, _. split; [done|].
    rewrite appended_app, appended_row_progress. split; [|done].
    exists 0, 0, "Invalid URL". unfold row_outcome. by rewrite Hinv.
  - rewrite loop_body_valid, retry_loop_three by done. cbn zeta.
    set (url := str (row_get df index url_col)).
    assert (Hshape : ∀ n id,
              row_shape w df url_col progress_callback index
                (row_progress progress_callback df url_col index ++
                 retry_trace (opened s) (S n) ++
                 [Append (try_page (new_page w id) url).1; Sleep 1])).
    { intros n id. exists (opened s), n, (try_page (new_page w id) url).1.
      unfold row_outcome. rewrite Hinv. split; [by exists id|done]. }
    assert (Happ : ∀ n v,
              appended (row_progress progress_callback df url_col index ++
                        retry_trace (opened s) n ++ [Append v; Sleep 1]) = [v]).
    { intros n v. rewrite !appended_app, appended_row_progress.
      by destruct (retry_trace_facts (opened s) n) as (-> & _). }
    destruct (try_page (new_page w (0 + opened s)) url).2;
      [|destruct (try_page (new_page w (1 + opened s)) url).2];
      eexists _, _; (split; [done|]); rewrite Happ; (split; [apply Hshape|done]).
Qed.

Lemma Rows_loop_body w df url_col progress_callback xs s segs s' :
  Rows (loop_body w df url_col progress_callback) xs s segs s' →
  Forall2 (row_shape w df url_col progress_callback) xs segs ∧
  extracted_counts s' = extracted_counts s ++ appended (List.concat segs).
Proof.
  induction 1 as [s|x xs s seg s1 segs s2 Hbody _ [IHshape IHcounts]].
  - split; [constructor|]. by rewrite app_nil_r.
  - destruct (loop_body_shape w df url_col progress_callback x s)
      as (seg' & s1' & Hbody' & Hshape & Hcounts).
    rewrite Hbody in Hbody'. injection Hbody' as <- <-.
    split; [by constructor|].
    cbn [List.concat]. by rewrite IHcounts, Hcounts, appended_app, app_assoc.
Qed.

Lemma row_shape_facts w df url_col progress_callback index seg :
  row_shape w df url_col progress_callback index seg →
  (∃ v, appended seg = [v] ∧ row_outcome w df url_col index v) ∧
  written seg = [] ∧
  session_run Idle seg = Some Idle ∧
  progress_calls seg = row_progress progress_callback df url_col index ∧
  count_events is_polite_delay seg =
    (if invalid_url (row_get df index url_col) then 0 else 1) ∧
  count_events is_launch seg = 0 ∧
  count_events is_close_browser seg = 0.
Proof.
  intros (id & n & v & Hv & ->).
  rewrite appended_app, written_app, session_run_app, progress_calls_app,
    !count_events_app, appended_row_progress, written_row_progress,
    session_row_progress, !count_row_progress by done.
  assert (Hprog : progress_calls (row_progress progress_callback df url_col index)
                  = row_progress progress_callback df url_col index).
  { unfold row_progress. by destruct progress_callback. }
  rewrite Hprog.
  destruct (invalid_url (row_get df index url_col)).
  { cbn. rewrite app_nil_r. repeat split; try done. by exists v. }
  destruct (retry_trace_facts id (S n)) as (Ha & Hw & Hp & _ & _ & Hd & Hl & Hc).
  rewrite appended_app, written_app, session_run_app, progress_calls_app,
    !count_events_app, session_retry_trace, Ha, Hw, Hp, Hd, Hl, Hc.
  cbn. rewrite app_nil_r. repeat split; try done. by exists v.
Qed.

Section Rows.
Context (w : World) (df : DataFrame) (url_col : string)
        (progress_callback : bool).

Lemma rows_outcomes xs segs :
  Forall2 (row_shape w df url_col progress_callback) xs segs →
  Forall2 (row_outcome w df url_col) xs (appended (List.concat segs)).
Proof.
  induction 1 as [|x seg xs segs Hseg _ IH]; [constructor|].
  apply row_shape_facts in Hseg as ((v & Hv & Hout) & _).
  cbn [List.concat]. rewrite appended_app, Hv. by constructor.
Qed.

Lemma rows_written xs segs :
  Forall2 (row_shape w df url_col progress_callback) xs segs → written (List.concat segs) = [].
Proof.
  induction 1 as [|x seg xs segs Hseg _ IH]; [done|].
  apply row_shape_facts in Hseg as (_ & Hw & _).
  cbn [List.concat]. by rewrite written_app, Hw, IH.
Qed.



Lemma rows_counts xs segs :
  Forall2 (row_shape w df url_col progress_callback) xs segs →
  count_events is_polite_delay (List.concat segs) =
    List.length
      (List.filter (fun i => negb (invalid_url (row_get df i url_col))) xs) ∧
  count_events is_launch (List.concat segs) = 0 ∧
  count_events is_close_browser (List.concat segs) = 0.
Proof.
  induction 1 as [|x seg xs segs Hseg _ (IHd & IHl & IHc)]; [done|].
  apply row_shape_facts in Hseg as (_ & _ & _ & _ & Hd & Hl & Hc).
  cbn [List.concat List.filter].
  rewrite !count_events_app, Hd, Hl, Hc, IHd, IHl, IHc.
  by destruct (invalid_url (row_get df x url_col)).
Qed.

End Rows.

(** ** Tables *)


Lemma get_col_put_col_ne name c vs cs :
  c ≠ name → get_col c (put_col name vs cs) = get_col c cs.
Proof.
  intros Hne. induction cs as [|[c' old] cs IH]; cbn.
  - apply not_eq_sym, String.eqb_neq in Hne. by rewrite Hne.
  - destruct (String.eqb c' name) eqn:Hc; cbn.
    + apply String.eqb_eq in Hc as ->.
      apply not_eq_sym, String.eqb_neq in Hne. by rewrite Hne.
    + by rewrite IH.
Qed.

Lemma columns_put_col name vs cs :
  (put_col name vs cs).*1 =
  if bool_decide (name ∈ cs.*1) then cs.*1 else cs.*1 ++ [name].
Proof.
  induction cs as [|[c old] cs IH]; cbn.
  - rewrite bool_decide_eq_false_2; [done|]. apply not_elem_of_nil.
  - destruct (String.eqb c name) eqn:Hc.
    + apply String.eqb_eq in Hc as ->.
      rewrite bool_decide_eq_true_2; [done|]. left.
    + apply String.eqb_neq in Hc. cbn. rewrite IH.
      destruct (decide (name ∈ cs.*1)) as [Hin|Hin].
      * rewrite !bool_decide_eq_true_2; [done|by right|done].
      * rewrite !bool_decide_eq_false_2; [done| |done].
        rewrite elem_of_cons. intros [Heq|Hin']; [congruence|done].
Qed.


Lemma detect_url_col_in df url_col :
  detect_url_col df = Ok url_col → url_col ∈ columns df.
Proof.
  unfold detect_url_col.
  destruct (List.find _ (columns df)) as [col|] eqn:Hfind.
  - intros [= <-]. apply List.find_some in Hfind as [Hin _].
    by apply list_elem_of_In.
  - destruct (iloc_0_0 df) as [v|e]; cbn [Py.bind]; [|done].
    destruct (startswith (str v) "http"); [|done].
    destruct (columns df) as [|c cs]; [done|]. intros [= <-]. left.
Qed.

Lemma len_ensure_ads_column df : len (ensure_ads_column df) = len df.
Proof. unfold ensure_ads_column. by case_bool_decide. Qed.

Lemma get_col_ensure_ads_column df c :
  c ∈ columns df →
  get_col c (cols (ensure_ads_column df)) = get_col c (cols df).
Proof.
  intros Hin. unfold ensure_ads_column. case_bool_decide as Hads; [done|].
  cbn. apply get_col_put_col_ne. by intros ->.
Qed.

(** ** The whole run *)

Lemma loop_body_ext w df df' url_col progress_callback index s :
  len df' = len df →
  get_col url_col (cols df') = get_col url_col (cols df) →
  loop_body w df' url_col progress_callback index s =
  loop_body w df url_col progress_callback index s.
Proof.
  intros Hlen Hcol.
  unfold loop_body, processing_message, row_get, cell. by rewrite Hlen, Hcol.
Qed.

Lemma Rows_ext {A} (body body' : A → Run unit) xs s segs s' :
  (∀ x s, body x s = body' x s) →
  Rows body xs s segs s' → Rows body' xs s segs s'.
Proof.
  intros Hext. induction 1 as [|x xs s seg s1 segs s2 Hbody _ IH];
    econstructor; [by rewrite <- Hext|done].
Qed.

Lemma scrape_rows_eq w df url_col progress_callback s :
  ∃ segs s',
    Rows (loop_body w df url_col progress_callback) (seq 0 (len df)) s segs s' ∧
    scrape_rows w df url_col progress_callback s =
    (tt, [Launch; NewContext] ++ List.concat segs ++ [CloseBrowser], s').
Proof.
  destruct (for_each_Rows (loop_body w df url_col progress_callback)
              (seq 0 (len df)) s) as (segs & s' & Hrun & Hrows).
  exists segs, s'. split; [done|].
  unfold scrape_rows, mbind, Run_bind, emit. by rewrite Hrun.
Qed.

(** A run that finds its input and the URL column goes through every
    row, assigns the result column and calls [to_csv]. *)
Lemma process_csv_run w input_path output_path progress_callback df url_col :
  path_exists w input_path = true →
  read_csv w input_path = Ok df →
  detect_url_col df = Ok url_col →
  ∃ segs df2,
    Forall2 (row_shape w df url_col progress_callback) (seq 0 (len df)) segs ∧
    set_column (ensure_ads_column df) "number of ads"
      (Str <$> appended (List.concat segs)) = Ok df2 ∧
    process_csv w input_path output_path progress_callback =
    (match to_csv w df2 output_path with
     | Ok _ => Ok tt
     | Raise e => Raise ("Error writing output CSV: " +:+ e)
     end,
     batch_trace progress_callback df url_col output_path segs df2
       (saved (to_csv w df2 output_path))).
Proof.
  intros Hexists Hread Hdetect.
  pose proof (detect_url_col_in _ _ Hdetect) as Hin.
  destruct (scrape_rows_eq w (ensure_ads_column df) url_col progress_callback
              initial) as (segs & s1 & Hrows & Hrun).
  rewrite len_ensure_ads_column in Hrows.
  eapply Rows_ext in Hrows.
  2:{ intros i s. apply loop_body_ext;
        [apply len_ensure_ads_column | by apply get_col_ensure_ads_column]. }
  destruct (Rows_loop_body _ _ _ _ _ _ _ _ Hrows) as [Hshape Hcounts].
  pose proof (Forall2_length _ _ _ (rows_outcomes _ _ _ _ _ _ Hshape)) as Hlen.
  rewrite length_seq in Hlen. cbn in Hcounts.
  assert (Hset : ∃ df2,
            set_column (ensure_ads_column df) "number of ads"
              (Str <$> extracted_counts s1) = Ok df2 ∧ len df2 = len df).
  { unfold set_column.
    rewrite length_fmap, Hcounts, <- Hlen, len_ensure_ads_column, Nat.eqb_refl.
    eexists. split; [done|]. apply len_ensure_ads_column. }
  destruct Hset as (df2 & Hset & Hlen2).
  exists segs, df2. split; [done|]. split; [by rewrite <- Hcounts|].
  unfold process_csv, batch_trace.
  rewrite Hexists, Hread, Hdetect, progress_eq, Hrun, Hset, progress_eq, Hlen2.
  cbn [negb].
  destruct (to_csv w df2 output_path), progress_callback; cbn;
    by rewrite <- ?app_assoc.
Qed.

Section BatchTrace.
Context (w : World) (df : DataFrame) (url_col output_path : string)
        (progress_callback : bool) (segs : list (list event))
        (df2 : DataFrame) (saved : bool).
Hypothesis Hshape :
  Forall2 (row_shape w df url_col progress_callback) (seq 0 (len df)) segs.

Lemma appended_batch_trace :
  appended (batch_trace progress_callback df url_col output_path segs df2 saved)
  = appended (List.concat segs).
Proof.
  unfold batch_trace. rewrite !appended_app.
  destruct progress_callback, saved; cbn; by rewrite app_nil_r.
Qed.

Lemma written_batch_trace :
  written (batch_trace progress_callback df url_col output_path segs df2 saved)
  = [df2].
Proof.
  unfold batch_trace. rewrite !written_app, (rows_written _ _ _ _ _ _ Hshape).
  by destruct progress_callback, saved.
Qed.



Lemma counts_batch_trace :
  count_events is_polite_delay
    (batch_trace progress_callback df url_col output_path segs df2 saved) =
    List.length
      (List.filter (fun i => negb (invalid_url (row_get df i url_col)))
         (seq 0 (len df))) ∧
  count_events is_launch
    (batch_trace progress_callback df url_col output_path segs df2 saved) = 1 ∧
  count_events is_close_browser
    (batch_trace progress_callback df url_col output_path segs df2 saved) = 1.
Proof.
  destruct (rows_counts _ _ _ _ _ _ Hshape) as (Hd & Hl & Hc).
  unfold batch_trace. rewrite !count_events_app, Hd, Hl, Hc.
  by destruct progress_callback, saved; cbn; rewrite ?Nat.add_0_r.
Qed.

End BatchTrace.



Lemma set_column_ok df name values df2 :
  set_column df name values = Ok df2 →
  index df2 = index df ∧ cols df2 = put_col name values (cols df).
Proof.
  unfold set_column. destruct (_ =? _)%nat; [|done]. by intros [= <-].
Qed.


(** ** The batch: one outcome per row *)





Lemma retry_policy_witness :
  ∃ tr s',
    loop_body Demo.world Demo.table "url" true 0 initial = (tt, tr, s') ∧
    count_events is_new_page tr = 3 ∧
    count_events is_retry_delay tr = 2 ∧
    extracted_counts s' = ["Error: net::ERR_NAME_NOT_RESOLVED"].
Proof.
  destruct (retry_policy Demo.world Demo.table "url" true 0 initial eq_refl)
    as (n & tr & Hn & Hearlier & Hstop & Hrun & Htr & Hpages & Hdelays & Hall & _).
  assert (n = 3) as ->.
  { apply Hall. intros i Hi Hsucc. apply try_page_break in Hsucc.
    destruct i as [|[|[|i]]]; [discriminate Hsucc..|lia]. }
  eexists _, _. split; [exact Hrun|]. split; [exact Hpages|].
  split; [exact Hdelays|reflexivity].
Defined.

(** ** The batch: progress, session, delays, table *)






(** C9. A row with an invalid URL makes no delay at all, and over the
    whole run the polite delay of 1 is made once for every row with a
    valid URL and for no other. *)
Theorem polite_delay_only_after_attempts w input_path output_path
    progress_callback df url_col :
  path_exists w input_path = true →
  read_csv w input_path = Ok df →
  detect_url_col df = Ok url_col →
  (∀ i s, invalid_url (row_get df i url_col) = true →
          count_events is_sleep
            (loop_body w df url_col progress_callback i s).1.2 = 0) ∧
  count_events is_polite_delay
    (process_csv w input_path output_path progress_callback).2 =
  List.length
    (List.filter (fun i => negb (invalid_url (row_get df i url_col)))
       (seq 0 (len df))).
Proof.
  intros Hexists Hread Hdetect. split.
  - intros i s Hinv. rewrite loop_body_invalid by done. cbn [fst snd].
    by rewrite count_events_app, count_row_progress.
  - destruct (process_csv_run w input_path output_path progress_callback df
                url_col Hexists Hread Hdetect) as (segs & df2 & Hshape & _ & ->).
    cbn [snd].
    by destruct (counts_batch_trace _ _ _ output_path _ _ df2
                   (saved (to_csv w df2 output_path)) Hshape) as (-> & _).
Qed.

Lemma polite_delay_only_after_attempts_witness :
  count_events is_polite_delay
    (process_csv Demo.world "ads.csv" "out.csv" true).2 = 2.
Proof.
  apply (polite_delay_only_after_attempts Demo.world "ads.csv" "out.csv" true
           Demo.table "url"); reflexivity.
Defined.



(** * Further properties *)

(** ** The page extractor, branch by branch *)

Lemma read_ads_count_unread st timeout :
  count_unread st timeout → ∃ e, read_ads_count st timeout = Raise e.
Proof.
  intros [Hwait|[Hwait [e Htext]]].
  - by apply read_ads_count_not_visible.
  - exists e. unfold read_ads_count. by rewrite Hwait, Htext.
Qed.

Lemma read_ads_count_inv st timeout x :
  read_ads_count st timeout = Ok x →
  ∃ text, count_visible st timeout text ∧ x = strip text.
Proof.
  unfold read_ads_count, count_visible.
  destruct (wait_for_visible st timeout) as [[]|?]; [|done].
  destruct (inner_text st) as [text|?]; [|done].
  intros [= <-]. by exists text.
Qed.

(** X1. When no count is read (the wait ran out, or the text of the
    element could not be read) and the page shows "No ads found", both
    call sites return "no ads", and the attempt of the batch loop ends
    the retries. *)
Theorem no_ads_text_fallback page url st :
  goto page url Timeout.goto_single = Ok st →
  goto page url Timeout.goto_batch = Ok st →
  count_unread st Timeout.wait_single →
  count_unread st Timeout.wait_batch →
  no_ads_text_present st →
  scrape_ads_count page url = "no ads" ∧
  try_page page url = ("no ads", true).
Proof.
  intros Hs Hb Hus Hub [n Hn].
  apply read_ads_count_unread in Hus as [es Hus], Hub as [eb Hub].
  unfold scrape_ads_count, try_page. by rewrite Hs, Hb, Hus, Hub, Hn.
Qed.

(** X2. When no count is read, no "No ads found" text is there and the
    title lacks the product name, the single-shot extractor returns
    "Error: Element not found" and the attempt of the batch loop
    "Error: Page load failed", which does not end the retries. *)
Theorem page_not_loaded page url st :
  goto page url Timeout.goto_single = Ok st →
  goto page url Timeout.goto_batch = Ok st →
  count_unread st Timeout.wait_single →
  count_unread st Timeout.wait_batch →
  no_ads_text_absent st →
  title_lacks_product_name st →
  scrape_ads_count page url = "Error: Element not found" ∧
  try_page page url = ("Error: Page load failed", false).
Proof.
  intros Hs Hb Hus Hub Hnone (t & Htitle & Hname).
  apply read_ads_count_unread in Hus as [es Hus], Hub as [eb Hub].
  unfold scrape_ads_count, try_page.
  by rewrite Hs, Hb, Hus, Hub, Hnone, Htitle, Hname.
Qed.

(** X3. A navigation that raises is reported, not raised: the
    single-shot extractor returns "Error loading page: " followed by the
    message, the attempt of the batch loop "Error: " followed by the
    message, and the retries go on. *)
Theorem navigation_failure page url e :
  goto page url Timeout.goto_single = Raise e →
  goto page url Timeout.goto_batch = Raise e →
  scrape_ads_count page url = "Error loading page: " +:+ e ∧
  try_page page url = ("Error: " +:+ e, false).
Proof.
  intros Hs Hb. unfold scrape_ads_count, try_page. by rewrite Hs, Hb.
Qed.

(** X4. When no count is read and a query of the fallback raises (the
    count of "No ads found" nodes, or the title after a count of zero),
    both call sites return "Error: " followed by the message of that
    exception, and the retries go on. *)
Theorem fallback_failure page url st e :
  goto page url Timeout.goto_single = Ok st →
  goto page url Timeout.goto_batch = Ok st →
  count_unread st Timeout.wait_single →
  count_unread st Timeout.wait_batch →
  fallback_raises st e →
  scrape_ads_count page url = "Error: " +:+ e ∧
  try_page page url = ("Error: " +:+ e, false).
Proof.
  intros Hs Hb Hus Hub Hraise.
  apply read_ads_count_unread in Hus as [es Hus], Hub as [eb Hub].
  unfold scrape_ads_count, try_page. rewrite Hs, Hb, Hus, Hub.
  by destruct Hraise as [-> | [-> ->]].
Qed.

(** X5. Whatever the page does, [scrape_ads_count] returns "no ads", or
    a string that begins with "Error", or the trimmed text of the count
    element that became visible. *)
Theorem scrape_ads_count_range page url :
  scrape_ads_count page url = "no ads" ∨
  startswith (scrape_ads_count page url) "Error" = true ∨
  ∃ st text,
    goto page url Timeout.goto_single = Ok st ∧
    count_visible st Timeout.wait_single text ∧
    scrape_ads_count page url = strip text.
Proof.
  unfold scrape_ads_count.
  destruct (goto page url Timeout.goto_single) as [st|e]; [|by right; left].
  destruct (read_ads_count st Timeout.wait_single) as [x|e] eqn:Hread.
  { apply read_ads_count_inv in Hread as (text & Hvisible & ->).
    destruct (String.eqb (strip text) "0 ads"); [by left|].
    right. right. by exists st, text. }
  destruct (no_ads_found_count st) as [[|n]|e']; [|by left|by right; left].
  destruct (title st) as [t|e']; [|by right; left].
  destruct (contains "Google Ads" t); [by left|by right; left].
Qed.

Lemma try_page_range page url :
  (try_page page url).1 = "no ads" ∨
  startswith (try_page page url).1 "Error: " = true ∨
  ∃ st text,
    goto page url Timeout.goto_batch = Ok st ∧
    count_visible st Timeout.wait_batch text ∧
    (try_page page url).1 = strip text.
Proof.
  unfold try_page.
  destruct (goto page url Timeout.goto_batch) as [st|e]; [|by right; left].
  destruct (read_ads_count st Timeout.wait_batch) as [x|e] eqn:Hread.
  { apply read_ads_count_inv in Hread as (text & Hvisible & ->).
    destruct (String.eqb (strip text) "0 ads"); [by left|].
    right. right. by exists st, text. }
  destruct (no_ads_found_count st) as [[|n]|e']; [|by left|by right; left].
  destruct (title st) as [t|e']; [|by right; left].
  destruct (contains "Google Ads" t); by right; left.
Qed.

Lemma no_ads_text_fallback_witness :
  scrape_ads_count (Demo.loaded Sample.unreadable) Demo.url = "no ads" ∧
  try_page (Demo.loaded Sample.no_ads) Demo.url = ("no ads", true).
Proof.
  split.
  - apply (no_ads_text_fallback (Demo.loaded Sample.unreadable) Demo.url
             Sample.unreadable); try reflexivity;
      try (right; split; [reflexivity|by eexists]); by exists 0.
  - apply (no_ads_text_fallback (Demo.loaded Sample.no_ads) Demo.url
             Sample.no_ads); try reflexivity;
      try (left; by eexists); by exists 0.
Defined.

Lemma page_not_loaded_witness :
  scrape_ads_count (Demo.loaded (Demo.bare "502 Bad Gateway")) Demo.url
    = "Error: Element not found" ∧
  try_page (Demo.loaded (Demo.bare "502 Bad Gateway")) Demo.url
    = ("Error: Page load failed", false).
Proof.
  apply (page_not_loaded _ Demo.url (Demo.bare "502 Bad Gateway"));
    try reflexivity; try (left; by eexists); by eexists.
Defined.

Lemma navigation_failure_witness :
  scrape_ads_count Demo.unreachable Demo.url
    = "Error loading page: net::ERR_NAME_NOT_RESOLVED" ∧
  try_page Demo.unreachable Demo.url
    = ("Error: net::ERR_NAME_NOT_RESOLVED", false).
Proof.
  apply (navigation_failure Demo.unreachable Demo.url
           "net::ERR_NAME_NOT_RESOLVED"); reflexivity.
Defined.

Lemma fallback_failure_witness :
  scrape_ads_count (Demo.loaded Sample.torn) Demo.url = "Error: Target closed" ∧
  try_page (Demo.loaded Sample.torn) Demo.url = ("Error: Target closed", false).
Proof.
  apply (fallback_failure _ Demo.url Sample.torn "Target closed");
    try reflexivity; left; by eexists.
Defined.

(** ** The whole run, with the rows *)



(** X6. Every value a run records belongs to a row of the table. For a
    row with an invalid URL it is "Invalid URL"; for any other row it is
    "no ads", or a string that begins with "Error: ", or the trimmed text
    of the count element that a page showed for the URL of that row. *)
Theorem outcome_range w input_path output_path progress_callback df url_col :
  path_exists w input_path = true →
  read_csv w input_path = Ok df →
  detect_url_col df = Ok url_col →
  ∀ i v,
    appended (process_csv w input_path output_path progress_callback).2 !! i
      = Some v →
    let url := row_get df i url_col in
    i < len df ∧
    if invalid_url url then v = "Invalid URL"
    else
      v = "no ads" ∨
      startswith v "Error: " = true ∨
      ∃ id st text,
        goto (new_page w id) (str url) Timeout.goto_batch = Ok st ∧
        count_visible st Timeout.wait_batch text ∧
        v = strip text.
Proof.
  intros Hexists Hread Hdetect i v.
  destruct (process_csv_run w input_path output_path progress_callback df url_col
              Hexists Hread Hdetect) as (segs & df2 & Hshape & _ & ->).
  cbn [snd]. rewrite (appended_batch_trace _ _ _ _ _ _ _ _ Hshape).
  intros Hv. cbn zeta.
  pose proof (rows_outcomes _ _ _ _ _ _ Hshape) as Hout.
  eapply Forall2_lookup_r in Hout as (i' & Hi & Hrow); [|done].
  apply lookup_seq in Hi as [-> Hi]. cbn [Nat.add] in *.
  split; [done|]. unfold row_outcome in Hrow.
  destruct (invalid_url (row_get df i url_col)); [done|].
  destruct Hrow as [id ->].
  destruct (try_page_range (new_page w id) (str (row_get df i url_col)))
    as [Hno|[Herr|(st & text & Hgoto & Hvis & Htext)]]; [by left|by right; left|].
  right. right. by exists id, st, text.
Qed.

Lemma outcome_range_witness :
  appended (process_csv Demo.world "ads.csv" "out.csv" true).2 !! 1
    = Some "Invalid URL" ∧ 1 < 4.
Proof.
  assert (∃ v, appended (process_csv Demo.world "ads.csv" "out.csv" true).2 !! 1
               = Some v) as [v Hv] by (by eexists).
  destruct (outcome_range Demo.world "ads.csv" "out.csv" true Demo.table "url"
              eq_refl eq_refl eq_refl 1 v Hv) as [Hi Hrange].
  cbn in Hrange. rewrite Hrange in Hv. by split.
Defined.

(** ** Failures of the run *)







(** ** What a run costs *)










(** ** The callback is only told *)





(** ** Finding the URL column *)

Lemma find_first_match {A} (f : A → bool) pre x post :
  Forall (λ y, f y = false) pre → f x = true →
  List.find f (pre ++ x :: post) = Some x.
Proof.
  intros Hpre Hx. induction Hpre as [|y pre Hy _ IH]; cbn.
  - by rewrite Hx.
  - by rewrite Hy.
Qed.

Lemma find_no_match {A} (f : A → bool) xs :
  Forall (λ y, f y = false) xs → List.find f xs = None.
Proof. induction 1 as [|y xs Hy _ IH]; [done|]. cbn. by rewrite Hy. Qed.

(** X13. The URL column is the first column, in file order, whose label
    contains "url" or "link" in any mix of cases; what the cells of the
    table hold, and whether there are rows at all, plays no part. *)
Theorem first_matching_label_wins df before url_col after :
  columns df = before ++ url_col :: after →
  Forall (λ label, label_matches label = false) before →
  label_matches url_col = true →
  detect_url_col df = Ok url_col.
Proof.
  intros Hcolumns Hbefore Hmatch. unfold detect_url_col. rewrite Hcolumns.
  rewrite (find_first_match
             (λ col, contains "url" (lower col) || contains "link" (lower col))
             before url_col after); [done|exact Hbefore|exact Hmatch].
Qed.

Lemma first_matching_label_wins_witness :
  detect_url_col
    {| index := 0; cols := [("Name", []); ("Web LINK", []); ("url", [])] |}
  = Ok "Web LINK".
Proof.
  apply (first_matching_label_wins _ ["Name"] "Web LINK" ["url"]).
  - reflexivity.
  - by repeat constructor.
  - reflexivity.
Defined.

(** X14. When no label contains "url" or "link", only the first cell of
    the first column is looked at: the first column is taken when that
    cell begins with "http", and the run asks for a column named "url"
    otherwise. When there is no such cell, a table without rows, the
    failure is that of [df.iloc[0, 0]] and not that request. *)
Theorem detection_without_label df :
  Forall (λ label, label_matches label = false) (columns df) →
  match cols df with
  | (first, v :: _) :: _ =>
      detect_url_col df =
      if startswith (str v) "http" then Ok first
      else Raise "Could not detect a URL column. Please name it 'url' or similar."
  | _ =>
      ∃ e, detect_url_col df = Raise e ∧
           e ≠ "Could not detect a URL column. Please name it 'url' or similar."
  end.
Proof.
  intros Hnone. unfold detect_url_col.
  rewrite (find_no_match
             (λ col, contains "url" (lower col) || contains "link" (lower col))
             _ Hnone).
  unfold iloc_0_0, columns.
  destruct (cols df) as [|[first [|v vs]] rest]; cbn [Py.bind fmap list_fmap fst].
  - by eexists.
  - by eexists.
  - done.
Qed.

Lemma detection_without_label_witness :
  detect_url_col Sample.unlabelled = Ok "site".
Proof.
  apply (detection_without_label Sample.unlabelled). by repeat constructor.
Defined.

(** ** Pages that answer alike every time *)

Lemma stationary_rows w df url_col page xs outcomes :
  stationary w page →
  Forall2 (row_outcome w df url_col) xs outcomes →
  outcomes = (λ i, classify_row page (row_get df i url_col)) <$> xs.
Proof.
  intros Hpage. induction 1 as [|x v xs outcomes Hv _ IH]; [done|].
  cbn. rewrite <- IH. f_equal. unfold row_outcome in Hv. unfold classify_row.
  destruct (invalid_url (row_get df x url_col)); [done|].
  destruct Hv as [id ->]. by rewrite Hpage.
Qed.



(** ** Running again on the output *)

Lemma put_col_put_col name vs vs' cs :
  put_col name vs (put_col name vs' cs) = put_col name vs cs.
Proof.
  induction cs as [|[c old] cs IH]; cbn.
  - by rewrite String.eqb_refl.
  - destruct (String.eqb c name) eqn:Hc; cbn; rewrite Hc; [done|by rewrite IH].
Qed.

Lemma elem_of_columns_put_col name vs cs : name ∈ (put_col name vs cs).*1.
Proof.
  rewrite columns_put_col. case_bool_decide; [done|].
  apply elem_of_app. right. left.
Qed.

Lemma find_app_Some {A} (f : A → bool) xs ys x :
  List.find f xs = Some x → List.find f (xs ++ ys) = Some x.
Proof.
  induction xs as [|y xs IH]; [done|]. cbn. destruct (f y); [done|apply IH].
Qed.

Lemma find_app_None {A} (f : A → bool) xs ys :
  List.find f xs = None → List.find f (xs ++ ys) = List.find f ys.
Proof.
  induction xs as [|y xs IH]; [done|]. cbn. destruct (f y); [done|apply IH].
Qed.

Lemma find_columns_put_col vals cs :
  List.find label_matches (put_col "number of ads" vals cs).*1 =
  List.find label_matches cs.*1.
Proof.
  rewrite columns_put_col. case_bool_decide; [done|].
  destruct (List.find label_matches cs.*1) as [col|] eqn:Hfind.
  - by apply find_app_Some.
  - by rewrite find_app_None.
Qed.

(** The column found stays the column found when the result column is
    set, unless it is the result column itself. *)
Lemma detect_url_col_put_col df url_col n vals :
  detect_url_col df = Ok url_col →
  url_col ≠ "number of ads" →
  detect_url_col
    {| index := n; cols := put_col "number of ads" vals (cols df) |}
  = Ok url_col.
Proof.
  unfold detect_url_col, columns. cbn [cols].
  change (λ col, contains "url" (lower col) || contains "link" (lower col))
    with label_matches.
  rewrite find_columns_put_col.
  destruct (List.find label_matches (cols df).*1) as [col|]; [done|].
  unfold iloc_0_0. cbn [cols].
  destruct (cols df) as [|[first [|v vs]] rest]; cbn [Py.bind]; [done..|].
  destruct (startswith (str v) "http") eqn:Hhttp; [|done].
  cbn [fmap list_fmap fst]. intros [= ->] Hne.
  apply String.eqb_neq in Hne. cbn [put_col]. rewrite Hne.
  cbn [Py.bind fmap list_fmap fst]. by rewrite Hhttp.
Qed.

(** X16. Running again on one's own output changes nothing: when the
    pages answer alike every time, the URL column is not the result
    column, and the file written reads back as the table written, a run
    on that file writes the same table again. *)
Theorem rerun_writes_the_same_table w input_path output_path output_path'
    progress_callback progress_callback' df url_col page out :
  path_exists w input_path = true →
  read_csv w input_path = Ok df →
  detect_url_col df = Ok url_col →
  url_col ≠ "number of ads" →
  stationary w page →
  written (process_csv w input_path output_path progress_callback).2 = [out] →
  path_exists w output_path = true →
  read_csv w output_path = Ok out →
  written (process_csv w output_path output_path' progress_callback').2 = [out].
Proof.
  intros Hexists Hread Hdetect Hne Hpage Hwritten Hexists' Hread'.
  pose proof (detect_url_col_in _ _ Hdetect) as Hin.
  destruct (process_csv_run w input_path output_path progress_callback df url_col
              Hexists Hread Hdetect) as (segs & df2 & Hshape & Hset & Hrun).
  rewrite Hrun in Hwritten. cbn [snd] in Hwritten.
  rewrite (written_batch_trace _ _ _ _ _ _ _ _ Hshape) in Hwritten.
  injection Hwritten as ->. clear Hrun.
  rewrite (stationary_rows w df url_col page _ _ Hpage
             (rows_outcomes _ _ _ _ _ _ Hshape)) in Hset.
  apply set_column_ok in Hset as [Hindex Hcols].
  fold (len out) (len (ensure_ads_column df)) in Hindex.
  rewrite len_ensure_ads_column in Hindex.
  assert (Hcol : get_col url_col (cols out) = get_col url_col (cols df)).
  { by rewrite Hcols, get_col_put_col_ne, get_col_ensure_ads_column. }
  assert (Hdetect' : detect_url_col out = Ok url_col).
  { assert (Hd : detect_url_col (ensure_ads_column df) = Ok url_col).
    { unfold ensure_ads_column. case_bool_decide; [done|].
      by apply detect_url_col_put_col. }
    destruct out as [n cs]. cbn [cols] in Hcols. rewrite Hcols.
    by apply detect_url_col_put_col. }
  assert (Hensure : ensure_ads_column out = out).
  { unfold ensure_ads_column, columns. rewrite Hcols.
    by rewrite bool_decide_eq_true_2 by apply elem_of_columns_put_col. }
  destruct (process_csv_run w output_path output_path' progress_callback' out
              url_col Hexists' Hread' Hdetect')
    as (segs' & df3 & Hshape' & Hset' & ->).
  cbn [snd]. rewrite (written_batch_trace _ _ _ _ _ _ _ _ Hshape').
  rewrite (stationary_rows w out url_col page _ _ Hpage
             (rows_outcomes _ _ _ _ _ _ Hshape')) in Hset'.
  rewrite Hensure, Hindex in Hset'.
  assert (Hsame : (λ i, classify_row page (row_get out i url_col)) <$>
                    seq 0 (len df)
                  = (λ i, classify_row page (row_get df i url_col)) <$>
                    seq 0 (len df)).
  { apply list_fmap_ext. intros _ i _. unfold row_get, cell. by rewrite Hcol. }
  rewrite Hsame in Hset'.
  apply set_column_ok in Hset' as [Hindex' Hcols'].
  rewrite Hcols, put_col_put_col, <- Hcols in Hcols'.
  destruct df3, out. cbn in *. by subst.
Qed.

Lemma rerun_writes_the_same_table_witness :
  written (process_csv Sample.rerun "out.csv" "out2.csv" true).2 =
  [{| index := 1;
      cols := [("url", [Str Demo.url]); ("number of ads", [Str "12 ads"])] |}].
Proof.
  apply (rerun_writes_the_same_table Sample.rerun "ads.csv" "out.csv" "out2.csv"
           false true Demo.single "url" (Demo.loaded (Demo.visible "12 ads")));
    try reflexivity.
  - discriminate.
  - intros k. reflexivity.
Defined.

(** ** [main] *)









(** X19. When the run stops before the loop [main] prints one line and
    leaves with status 1: "Error: Input file '...' not found." for a
    missing input, "Error: Error reading CSV: " with the message of the
    reader when the table cannot be read, and "Error: " with the message
    of the detection when no URL column is found. *)
Theorem main_reports_an_early_failure w args :
  (path_exists w (input_csv args) = false →
   main w args =
   (["Error: " +:+ ("Input file '" +:+ input_csv args +:+ "' not found.")],
    Some 1)) ∧
  (∀ e, path_exists w (input_csv args) = true →
        read_csv w (input_csv args) = Raise e →
        main w args = (["Error: " +:+ ("Error reading CSV: " +:+ e)], Some 1)) ∧
  (∀ df e, path_exists w (input_csv args) = true →
           read_csv w (input_csv args) = Ok df →
           detect_url_col df = Raise e →
           main w args = (["Error: " +:+ e], Some 1)).
Proof.
  unfold main, process_csv. repeat split.
  - by intros ->.
  - by intros e -> ->.
  - by intros df e -> -> ->.
Qed.
